(** * rest_framework_json_api.pagination: pagination fields and the
      JSON-API pagination envelope.

    A shallow embedding of [rest_framework_json_api/pagination.py] and the
    properties of its link construction, legacy serializer fields and
    paginated response. *)

From Stdlib Require Import ZArith Ascii String List Decimal DecimalString Lia.
From Stdlib Require Import DecimalPos DecimalZ.
From stdpp Require Import base gmap strings.

Local Open Scope Z_scope.

#[local] Arguments String.append _ _ : simpl nomatch.

(** ** Strings *)

Module Str.

(** [str(n)] of a Python integer: decimal digits, a leading minus sign for a
    negative number, no leading zeros. *)
Definition of_int (n : Z) : string := NilZero.string_of_int (Z.to_int n).

(** [s.partition(c)]: the text before the first [c], and the text after it
    when [c] occurs. *)
Fixpoint partition (c : ascii) (s : string) : string * option string :=
  match s with
  | EmptyString => (EmptyString, None)
  | String a t =>
      if Ascii.eqb a c then (EmptyString, Some t)
      else let '(h, r) := partition c t in (String a h, r)
  end.

(** [s.split(c)]: the pieces of [s] between the occurrences of [c]; never
    empty, the empty string splits into one empty piece. *)
Fixpoint split (c : ascii) (s : string) : list string :=
  match s with
  | EmptyString => [EmptyString]
  | String a t =>
      if Ascii.eqb a c then EmptyString :: split c t
      else match split c t with
           | h :: r => String a h :: r
           | [] => [String a EmptyString]
           end
  end.

(** [c.join(l)]. *)
Fixpoint join (c : ascii) (l : list string) : string :=
  match l with
  | [] => EmptyString
  | [s] => s
  | s :: r => s +:+ String c (join c r)
  end.

(** [c in s]. *)
Fixpoint mem (c : ascii) (s : string) : bool :=
  match s with
  | EmptyString => false
  | String a t => Ascii.eqb a c || mem c t
  end.

End Str.

(** ** The collaborators *)

(** Modelled from the spec: the helper [replace_query_param(url, key, val)]
    imported from [rest_framework.templatetags.rest_framework], whose source
    is not part of the repository.  The spec's substitution rule: given a URL
    possibly already containing the parameter, replace its value; if absent,
    append it; preserve all other existing query parameters and the path and
    host untouched.  The URL is cut at its first question mark, the query at
    its ampersands, and a parameter is named by the text before its first
    equals sign.  Parameters are kept as raw text, so the others are carried
    over character for character, in their order.  The spec does not speak of
    a URL that names the parameter more than once; there the rule is applied
    to each occurrence. *)
Module Url.

Definition path (url : string) : string := fst (Str.partition "?" url).

Definition query (url : string) : option string := snd (Str.partition "?" url).

(** The parameters of the query string, as raw [key=value] texts; a URL
    without a query string, or with an empty one, has none. *)
Definition params (url : string) : list string :=
  match query url with
  | None => []
  | Some q => if String.eqb q "" then [] else Str.split "&" q
  end.

Definition param_key (p : string) : string := fst (Str.partition "=" p).

Definition names (key p : string) : bool := String.eqb (param_key p) key.

Definition has_param (key : string) (ps : list string) : bool :=
  existsb (names key) ps.

Definition set_param (key val : string) (ps : list string) : list string :=
  if has_param key ps
  then map (fun p => if names key p then key +:+ "=" +:+ val else p) ps
  else ps ++ [key +:+ "=" +:+ val].

Definition unsplit (path : string) (ps : list string) : string :=
  path +:+ "?" +:+ Str.join "&" ps.

(** The URL already has [key=val]: its query names [key], and every
    parameter of that name reads [key=val]. *)
Definition carries (key val url : string) : bool :=
  has_param key (params url) &&
  forallb (fun p => negb (names key p) || String.eqb p (key +:+ "=" +:+ val))
          (params url).

(** Two URLs are the same aside from the order of their parameters: the same
    path, and the same parameters, each as often. *)
Definition same_modulo_order (u v : string) : Prop :=
  path u = path v /\ Permutation (params u) (params v).

End Url.

Definition replace_query_param (url key : string) (val : Z) : string :=
  Url.unsplit (Url.path url) (Url.set_param key (Str.of_int val) (Url.params url)).

(** ** Calls, exceptions and the trace of page accessors *)

(** What a call comes to: a value, or an exception. *)
Inductive outcome (A : Type) : Type :=
| Return (a : A)
| Raise.
Arguments Return {A} a.
Arguments Raise {A}.

(** The calls made on the page whose order matters. *)
Inductive Call : Type :=
| has_next_returned (b : bool)
| next_page_number_called
| has_previous_returned (b : bool)
| previous_page_number_called.

(** A computation: the accessor calls it made, in order, and its outcome. *)
Definition Eff (A : Type) : Type := list Call * outcome A.

Definition trace {A} (m : Eff A) : list Call := fst m.
Definition result {A} (m : Eff A) : outcome A := snd m.

#[export] Instance Eff_ret : MRet Eff := fun A a => ([], Return a).

#[export] Instance Eff_bind : MBind Eff := fun A B f m =>
  match m with
  | (t, Raise) => (t, Raise)
  | (t, Return a) => let '(t', r) := f a in (t ++ t', r)
  end.

(** Modelled from the spec: the paginator collaborator, [count] and
    [num_pages]. *)
Module Paginator.
Record t : Type := { count : Z; num_pages : Z }.
End Paginator.

(** Modelled from the spec: the page collaborator.  [has_next()] and
    [has_previous()] answer with a boolean; [next_page_number()] and
    [previous_page_number()] answer with an integer or raise. *)
Module Page.
Record t : Type := {
  number : Z;
  paginator : Paginator.t;
  has_next_answer : bool;
  has_previous_answer : bool;
  next_page_number_answer : outcome Z;
  previous_page_number_answer : outcome Z
}.

Definition has_next (p : t) : Eff bool :=
  ([has_next_returned (has_next_answer p)], Return (has_next_answer p)).

Definition has_previous (p : t) : Eff bool :=
  ([has_previous_returned (has_previous_answer p)], Return (has_previous_answer p)).

Definition next_page_number (p : t) : Eff Z :=
  ([next_page_number_called], next_page_number_answer p).

Definition previous_page_number (p : t) : Eff Z :=
  ([previous_page_number_called], previous_page_number_answer p).

(** The accessors are defined exactly when the corresponding boolean holds. *)
Definition defined (p : t) : Prop :=
  (has_next_answer p = true <-> exists n, next_page_number_answer p = Return n) /\
  (has_previous_answer p = true <-> exists n, previous_page_number_answer p = Return n).

(** Pages are numbered from one: the page numbers that the accessors answer
    with are page indexes, at least one. *)
Definition one_based (p : t) : Prop :=
  (forall n, next_page_number_answer p = Return n -> 1 <= n) /\
  (forall n, previous_page_number_answer p = Return n -> 1 <= n).

End Page.

(** Modelled from the spec: the request collaborator, which supplies the
    absolute URL of the current request. *)
Module Request.
Record t : Type := { build_absolute_uri : string }.
End Request.

(** [d.get(k)] on a dictionary whose values may be [None]. *)
Definition dict_get {V} (d : gmap string (option V)) (k : string) : option V :=
  match d !! k with
  | Some v => v
  | None => None
  end.

(** Lookup in an [OrderedDict] built from a list of pairs. *)
Fixpoint od_get {V} (k : string) (d : list (string * V)) : option V :=
  match d with
  | [] => None
  | (k', v) :: r => if String.eqb k' k then Some v else od_get k r
  end.

(** [request and request.build_absolute_uri() or '']: the empty string when
    the request is [None], and also when its URL is the empty string. *)
Definition request_url (request : option Request.t) : string :=
  match request with
  | None => ""
  | Some r =>
      let u := Request.build_absolute_uri r in
      if String.eqb u "" then "" else u
  end.

(** ** Pagination fields *)

Module NextPageLinkField.
Definition page_field : string := "page".

Definition to_representation (context : gmap string (option Request.t))
    (value : Page.t) : Eff (option string) :=
  b ← Page.has_next value;
  if negb b then mret None else
  page ← Page.next_page_number value;
  let request := dict_get context "request" in
  let url := request_url request in
  mret (Some (replace_query_param url page_field page)).
End NextPageLinkField.

Module NextPageField.
Definition page_field : string := "page".

Definition to_representation (value : Page.t) : Eff (option Z) :=
  b ← Page.has_next value;
  if negb b then mret None else
  n ← Page.next_page_number value;
  mret (Some n).
End NextPageField.

Module PreviousPageLinkField.
Definition page_field : string := "page".

Definition to_representation (context : gmap string (option Request.t))
    (value : Page.t) : Eff (option string) :=
  b ← Page.has_previous value;
  if negb b then mret None else
  page ← Page.previous_page_number value;
  let request := dict_get context "request" in
  let url := request_url request in
  mret (Some (replace_query_param url page_field page)).
End PreviousPageLinkField.

Module PreviousPageField.
Definition page_field : string := "page".

Definition to_representation (value : Page.t) : Eff (option Z) :=
  b ← Page.has_previous value;
  if negb b then mret None else
  n ← Page.previous_page_number value;
  mret (Some n).
End PreviousPageField.

Module PageField.
Definition page_field : string := "page".

Definition to_representation (value : Page.t) : Eff Z :=
  mret (Page.number value).
End PageField.

(** The framework's [ReadOnlyField]: the attribute named by [source], as
    it is. *)
Module ReadOnlyField.
Definition to_representation {A} (value : A) : Eff A := mret value.
End ReadOnlyField.

(** The serializer's declared fields, evaluated on the page in the order of
    their declaration; [source='*'] hands the page itself to the field. *)
Module PaginationSerializer.
Record Representation : Type := {
  next : option Z;
  next_link : option string;
  page : Z;
  previous : option Z;
  previous_link : option string;
  count : Z;
  total : Z
}.

Definition to_representation (context : gmap string (option Request.t))
    (value : Page.t) : Eff Representation :=
  next ← NextPageField.to_representation value;
  next_link ← NextPageLinkField.to_representation context value;
  page ← PageField.to_representation value;
  previous ← PreviousPageField.to_representation value;
  previous_link ← PreviousPageLinkField.to_representation context value;
  count ← ReadOnlyField.to_representation (Paginator.count (Page.paginator value));
  total ← ReadOnlyField.to_representation (Paginator.num_pages (Page.paginator value));
  mret {| next := next; next_link := next_link; page := page;
          previous := previous; previous_link := previous_link;
          count := count; total := total |}.
End PaginationSerializer.

(** ** The JSON-API pagination format *)

Module PageNumberPagination.

Record t : Type := {
  request : option Request.t;
  page : Page.t
}.

Record Meta : Type := { pagination : list (string * Z) }.

Record Response (Data : Type) : Type := {
  results : Data;
  meta : Meta;
  links : list (string * option string)
}.
Arguments results {Data} _.
Arguments meta {Data} _.
Arguments links {Data} _.

(** [not index] holds for [None] and for the integer zero. *)
Definition build_link (self : t) (index : option Z) : option string :=
  match index with
  | None => None
  | Some i =>
      if i =? 0 then None
      else
        let url := request_url (request self) in
        Some (replace_query_param url "page" i)
  end.

(** The two locals [next] and [previous] of [get_paginated_response]. *)
Definition next_and_previous (self : t) : Eff (option Z * option Z) :=
  has_next ← Page.has_next (page self);
  next ← (if has_next : bool
          then n ← Page.next_page_number (page self); mret (Some n)
          else mret None) : Eff (option Z);
  has_previous ← Page.has_previous (page self);
  previous ← (if has_previous : bool
              then n ← Page.previous_page_number (page self); mret (Some n)
              else mret None) : Eff (option Z);
  mret (next, previous).

Definition get_paginated_response {Data} (self : t) (data : Data)
    : Eff (Response Data) :=
  '(next, previous) ← next_and_previous self;
  mret {|
    results := data;
    meta := {| pagination := [
      ("page", Page.number (page self));
      ("pages", Paginator.num_pages (Page.paginator (page self)));
      ("count", Paginator.count (Page.paginator (page self)))
    ] |};
    links := [
      ("first", build_link self (Some 1));
      ("last", build_link self (Some (Paginator.num_pages (Page.paginator (page self)))));
      ("next", build_link self next);
      ("prev", build_link self previous)
    ]
  |}.

End PageNumberPagination.

Definition page2of5 : Page.t := {|
  Page.number := 2;
  Page.paginator := {| Paginator.count := 98; Paginator.num_pages := 5 |};
  Page.has_next_answer := true;
  Page.has_previous_answer := true;
  Page.next_page_number_answer := Return 3;
  Page.previous_page_number_answer := Return 1
|}.

Definition things : Request.t :=
  {| Request.build_absolute_uri := "https://api.example.com/things" |}.

Definition things_sorted : Request.t :=
  {| Request.build_absolute_uri := "https://api.example.com/things?page=1&sort=name" |}.

Definition things_page3 : Request.t :=
  {| Request.build_absolute_uri := "https://api.example.com/things?sort=name&page=3" |}.

(** The only page of an empty result set. *)
Definition empty_page : Page.t := {|
  Page.number := 1;
  Page.paginator := {| Paginator.count := 0; Paginator.num_pages := 0 |};
  Page.has_next_answer := false;
  Page.has_previous_answer := false;
  Page.next_page_number_answer := Raise;
  Page.previous_page_number_answer := Raise
|}.

(** The second and last page of a paginator that numbers its pages from
    zero. *)
Definition page_counted_from_zero : Page.t := {|
  Page.number := 1;
  Page.paginator := {| Paginator.count := 30; Paginator.num_pages := 2 |};
  Page.has_next_answer := false;
  Page.has_previous_answer := true;
  Page.next_page_number_answer := Raise;
  Page.previous_page_number_answer := Return 0
|}.

Definition with_request (r : Request.t) (p : Page.t) : PageNumberPagination.t :=
  {| PageNumberPagination.request := Some r; PageNumberPagination.page := p |}.

Definition no_request (p : Page.t) : PageNumberPagination.t :=
  {| PageNumberPagination.request := None; PageNumberPagination.page := p |}.

(** ** Traces in which the page-number accessors are guarded *)

(** [guarded_from next_ok previous_ok t]: in [t], every call of
    [next_page_number()] comes after a call of [has_next()], the latest of
    which answered true ([next_ok] stands for the calls before [t]), and the
    same for [previous_page_number()] and [has_previous()]. *)
Fixpoint guarded_from (next_ok previous_ok : bool) (t : list Call) : bool :=
  match t with
  | [] => true
  | has_next_returned b :: r => guarded_from b previous_ok r
  | has_previous_returned b :: r => guarded_from next_ok b r
  | next_page_number_called :: r => next_ok && guarded_from next_ok previous_ok r
  | previous_page_number_called :: r =>
      previous_ok && guarded_from next_ok previous_ok r
  end.

Definition guarded (t : list Call) : bool := guarded_from false false t.

(** Every page-number accessor called in [t] is defined on [p]. *)
Definition evaluates_defined (p : Page.t) (t : list Call) : Prop :=
  (In next_page_number_called t ->
   exists n, Page.next_page_number_answer p = Return n) /\
  (In previous_page_number_called t ->
   exists n, Page.previous_page_number_answer p = Return n).

(** An operation on the page [p] is safe: its page-number accessors are
    guarded, and when the accessors of [p] are defined exactly where the
    booleans hold, it calls none that is undefined and it returns. *)
Definition safe_on {A} (p : Page.t) (m : Eff A) : Prop :=
  guarded (trace m) = true /\
  (Page.defined p ->
   evaluates_defined p (trace m) /\ exists v, result m = Return v).

(** ** Compatibility bindings at the head of the module *)

(** A framework module is a namespace of classes; reading an attribute that
    it lacks raises [AttributeError]. *)
Module Compat.

Definition attribute {C} (module : gmap string C) (name : string) : outcome C :=
  match module !! name with
  | Some c => Return c
  | None => Raise
  end.

(** [getattr(module, name, default)]. *)
Definition getattr {C} (module : gmap string C) (name : string) (default : C) : C :=
  match module !! name with
  | Some c => c
  | None => default
  end.

(** [ReadOnlyField = getattr(serializers, 'ReadOnlyField', serializers.Field)]:
    the default [serializers.Field] is an argument, evaluated before the
    call. *)
Definition ReadOnlyField {C} (serializers : gmap string C) : outcome C :=
  match attribute serializers "Field" with
  | Return default => Return (getattr serializers "ReadOnlyField" default)
  | Raise => Raise
  end.

(** [try: BasePagination = pagination.PageNumberPagination]
    [except: BasePagination = pagination.BasePaginationSerializer]. *)
Definition BasePagination {C} (pagination : gmap string C) : outcome C :=
  match attribute pagination "PageNumberPagination" with
  | Return c => Return c
  | Raise => attribute pagination "BasePaginationSerializer"
  end.

End Compat.

(** [EmberPaginationSerializer] inherits everything from
    [PaginationSerializer]. *)
Module EmberPaginationSerializer.
Definition to_representation := PaginationSerializer.to_representation.
End EmberPaginationSerializer.

(** The only page of a result set that fits on one page. *)
Definition single_page : Page.t := {|
  Page.number := 1;
  Page.paginator := {| Paginator.count := 7; Paginator.num_pages := 1 |};
  Page.has_next_answer := false;
  Page.has_previous_answer := false;
  Page.next_page_number_answer := Raise;
  Page.previous_page_number_answer := Raise
|}.

(** A page that claims a next page and raises when asked for its number. *)
Definition page_with_broken_next : Page.t := {|
  Page.number := 1;
  Page.paginator := {| Paginator.count := 30; Paginator.num_pages := 2 |};
  Page.has_next_answer := true;
  Page.has_previous_answer := true;
  Page.next_page_number_answer := Raise;
  Page.previous_page_number_answer := Return 1
|}.

(** A request whose absolute URL is the empty string. *)
Definition blank : Request.t := {| Request.build_absolute_uri := "" |}.

(** The calls that one conditional read of the next, or of the previous,
    page number makes. *)
Definition next_calls (p : Page.t) : list Call :=
  has_next_returned (Page.has_next_answer p) ::
  (if Page.has_next_answer p then [next_page_number_called] else []).

Definition previous_calls (p : Page.t) : list Call :=
  has_previous_returned (Page.has_previous_answer p) ::
  (if Page.has_previous_answer p then [previous_page_number_called] else []).

(** ** Proof automation *)

#[local] Arguments replace_query_param : simpl never.
#[local] Arguments PageNumberPagination.build_link : simpl never.
#[local] Arguments dict_get : simpl never.

(** Case analysis on what the page answers, then evaluation of the calls. *)
Ltac page_cases p :=
  destruct p as [? ? [|] [|] [?|] [?|]]; simpl.

(** Decides a safety goal once the answers of the page are known. *)
Ltac safe_case :=
  unfold safe_on, Page.defined, evaluates_defined, trace, result; simpl;
  split; [reflexivity|];
  intros [[Hn Hn'] [Hp Hp']];
  try (destruct (Hn eq_refl); discriminate);
  try (destruct (Hp eq_refl); discriminate);
  repeat split; eauto; intros; intuition discriminate.

(** ** Lemmas on strings *)

Section StringLemmas.

Variable c : ascii.

Lemma mem_append (s1 s2 : string) :
  Str.mem c (s1 +:+ s2) = Str.mem c s1 || Str.mem c s2.
Proof.
  induction s1 as [|a s1 IH]; simpl; [reflexivity|].
  rewrite IH. now destruct (Ascii.eqb a c).
Qed.

Lemma partition_found (s h r : string) :
  Str.partition c s = (h, Some r) ->
  s = h +:+ String c r /\ Str.mem c h = false.
Proof.
  revert h. induction s as [|a s IH]; simpl; intros h E; [discriminate|].
  destruct (Ascii.eqb a c) eqn:Ea.
  - apply Ascii.eqb_eq in Ea. inversion E; subst. now split.
  - destruct (Str.partition c s) as [h' r'] eqn:Ep.
    inversion E; subst. destruct (IH h' eq_refl) as [-> Hm].
    simpl. rewrite Ea. now split.
Qed.

Lemma partition_missing (s h : string) :
  Str.partition c s = (h, None) -> h = s /\ Str.mem c s = false.
Proof.
  revert h. induction s as [|a s IH]; simpl; intros h E.
  - inversion E. now split.
  - destruct (Ascii.eqb a c) eqn:Ea; [discriminate|].
    destruct (Str.partition c s) as [h' r'] eqn:Ep.
    inversion E; subst. destruct (IH h' eq_refl) as [-> Hm]. now split.
Qed.

Lemma partition_absent (s : string) :
  Str.mem c s = false -> Str.partition c s = (s, None).
Proof.
  induction s as [|a s IH]; simpl; [reflexivity|].
  destruct (Ascii.eqb a c); simpl; [discriminate|].
  intros H. now rewrite IH.
Qed.

Lemma partition_append (h r : string) :
  Str.mem c h = false -> Str.partition c (h +:+ String c r) = (h, Some r).
Proof.
  induction h as [|a h IH]; simpl.
  - now rewrite Ascii.eqb_refl.
  - destruct (Ascii.eqb a c); simpl; [discriminate|].
    intros H. now rewrite IH.
Qed.

Lemma split_not_nil (s : string) : Str.split c s <> [].
Proof.
  induction s as [|a s IH]; simpl; [discriminate|].
  destruct (Ascii.eqb a c); [discriminate|].
  destruct (Str.split c s); [contradiction | discriminate].
Qed.

Lemma split_pieces (s : string) :
  Forall (fun p => Str.mem c p = false) (Str.split c s).
Proof.
  induction s as [|a s IH]; simpl.
  - now repeat constructor.
  - destruct (Ascii.eqb a c) eqn:Ea.
    + now constructor.
    + destruct (Str.split c s) as [|h r]; [now repeat constructor; simpl; rewrite Ea|].
      inversion IH; subst. constructor; [|assumption].
      simpl. now rewrite Ea.
Qed.

Lemma join_cons (p : string) (ps : list string) :
  ps <> [] -> Str.join c (p :: ps) = p +:+ String c (Str.join c ps).
Proof. destruct ps; [contradiction | reflexivity]. Qed.

Lemma join_split (s : string) : Str.join c (Str.split c s) = s.
Proof.
  induction s as [|a s IH]; simpl; [reflexivity|].
  destruct (Ascii.eqb a c) eqn:Ea.
  - apply Ascii.eqb_eq in Ea. subst a.
    rewrite join_cons by apply split_not_nil. simpl. now rewrite IH.
  - pose proof (split_not_nil s) as Hn.
    destruct (Str.split c s) as [|h r]; [contradiction|].
    destruct r as [|h' r]; simpl in *; now rewrite <- IH.
Qed.

Lemma split_absent (s : string) :
  Str.mem c s = false -> Str.split c s = [s].
Proof.
  induction s as [|a s IH]; simpl; [reflexivity|].
  destruct (Ascii.eqb a c); simpl; [discriminate|].
  intros H. now rewrite IH.
Qed.

Lemma split_append (h r : string) :
  Str.mem c h = false ->
  Str.split c (h +:+ String c r) = h :: Str.split c r.
Proof.
  induction h as [|a h IH]; simpl.
  - now rewrite Ascii.eqb_refl.
  - destruct (Ascii.eqb a c); simpl; [discriminate|].
    intros H. now rewrite IH.
Qed.

Lemma split_join (ps : list string) :
  ps <> [] -> Forall (fun p => Str.mem c p = false) ps ->
  Str.split c (Str.join c ps) = ps.
Proof.
  induction ps as [|p ps IH]; [contradiction|].
  intros _ Hall. inversion Hall as [|? ? Hp Hps]; subst.
  destruct ps as [|q ps].
  - simpl. now apply split_absent.
  - rewrite join_cons by discriminate.
    rewrite split_append by assumption.
    now rewrite IH.
Qed.

End StringLemmas.

(** ** Lemmas on the decimal text of an integer *)

Lemma string_of_uint_mem (c : ascii) (d : Decimal.uint) :
  Str.mem c "0123456789" = false ->
  Str.mem c (NilEmpty.string_of_uint d) = false.
Proof.
  intros H. simpl in H. repeat (apply orb_false_elim in H as [? H]).
  induction d; simpl; rewrite ?IHd; auto using orb_false_intro.
Qed.

Lemma of_int_mem (c : ascii) (n : Z) :
  Str.mem c "-0123456789" = false -> Str.mem c (Str.of_int n) = false.
Proof.
  intros H. simpl in H. apply orb_false_elim in H as [Hm H].
  unfold Str.of_int, NilZero.string_of_int, NilZero.string_of_uint.
  destruct (Z.to_int n) as [d|d].
  - destruct d; try (apply string_of_uint_mem; exact H).
    simpl. simpl in H. now apply orb_false_elim in H as [-> _].
  - simpl. rewrite Hm. simpl.
    destruct d; try (apply string_of_uint_mem; exact H).
    simpl. simpl in H. now apply orb_false_elim in H as [-> _].
Qed.

(** ** Lemmas on URLs *)

Lemma path_no_query_mark (url : string) : Str.mem "?" (Url.path url) = false.
Proof.
  unfold Url.path. destruct (Str.partition "?" url) as [h [r|]] eqn:E; simpl.
  - now apply partition_found in E.
  - apply partition_missing in E as [-> H]. exact H.
Qed.

Lemma params_pieces (url : string) :
  Forall (fun p => Str.mem "&" p = false) (Url.params url).
Proof.
  unfold Url.params. destruct (Url.query url) as [q|]; [|constructor].
  destruct (String.eqb q ""); [constructor | apply split_pieces].
Qed.

Lemma path_unsplit (p : string) (ps : list string) :
  Str.mem "?" p = false -> Url.path (Url.unsplit p ps) = p.
Proof.
  intros H. unfold Url.path, Url.unsplit.
  change (p +:+ "?" +:+ Str.join "&" ps) with (p +:+ String "?" (Str.join "&" ps)).
  now rewrite partition_append.
Qed.

Lemma join_not_empty (c : ascii) (ps : list string) (p : string) :
  In p ps -> p <> "" -> Str.join c ps <> "".
Proof.
  induction ps as [|q ps IH]; [contradiction|].
  intros Hin Hp. destruct ps as [|q' ps].
  - destruct Hin as [->|[]]. exact Hp.
  - rewrite join_cons by discriminate. destruct q; discriminate.
Qed.

Lemma params_unsplit (p : string) (ps : list string) :
  Str.mem "?" p = false ->
  Str.join "&" ps <> "" ->
  Forall (fun q => Str.mem "&" q = false) ps ->
  Url.params (Url.unsplit p ps) = ps.
Proof.
  intros Hp Hj Hall. unfold Url.params, Url.query, Url.unsplit.
  change (p +:+ "?" +:+ Str.join "&" ps) with (p +:+ String "?" (Str.join "&" ps)).
  rewrite partition_append by assumption. simpl.
  destruct (String.eqb (Str.join "&" ps) "") eqn:E.
  - apply String.eqb_eq in E. contradiction.
  - apply split_join; [|assumption]. intros ->. now apply Hj.
Qed.

(** A URL whose query has parameters is its path, a question mark and the
    parameters joined by ampersands. *)
Lemma unsplit_params (url : string) :
  Url.params url <> [] -> Url.unsplit (Url.path url) (Url.params url) = url.
Proof.
  unfold Url.params, Url.query, Url.path, Url.unsplit.
  destruct (Str.partition "?" url) as [h [q|]] eqn:E; simpl; [|contradiction].
  destruct (String.eqb q ""); [contradiction|]. intros _.
  rewrite join_split. apply partition_found in E as [-> _]. reflexivity.
Qed.

Section SetParam.

Variables key val : string.

Lemma new_not_empty : key +:+ "=" +:+ val <> "".
Proof. destruct key; discriminate. Qed.

Lemma set_param_new (ps : list string) :
  In (key +:+ "=" +:+ val) (Url.set_param key val ps).
Proof.
  unfold Url.set_param. destruct (Url.has_param key ps) eqn:E.
  - unfold Url.has_param in E. apply existsb_exists in E as [p [Hin Hp]].
    apply in_map_iff. exists p. now rewrite Hp.
  - apply in_or_app. right. now left.
Qed.

Lemma set_param_named (ps : list string) (p : string) :
  In p (Url.set_param key val ps) -> Url.names key p = true ->
  p = key +:+ "=" +:+ val.
Proof.
  unfold Url.set_param. destruct (Url.has_param key ps) eqn:E.
  - intros Hin Hn. apply in_map_iff in Hin as [q [Hq _]].
    destruct (Url.names key q) eqn:Eq; congruence.
  - intros Hin Hn. apply in_app_or in Hin as [Hin|[<-|[]]]; [|reflexivity].
    unfold Url.has_param in E.
    assert (existsb (Url.names key) ps = true); [|congruence].
    apply existsb_exists. now exists p.
Qed.

Lemma set_param_same (ps : list string) :
  Url.has_param key ps = true ->
  forallb (fun p => negb (Url.names key p) || String.eqb p (key +:+ "=" +:+ val)) ps
    = true ->
  Url.set_param key val ps = ps.
Proof.
  intros Hh Hall. unfold Url.set_param. rewrite Hh. clear Hh.
  induction ps as [|p ps IH]; [reflexivity|].
  simpl in *. apply andb_prop in Hall as [Hp Hall]. rewrite IH by exact Hall.
  destruct (Url.names key p); [|reflexivity].
  simpl in Hp. apply String.eqb_eq in Hp. now rewrite Hp.
Qed.

Hypothesis key_no_eq : Str.mem "=" key = false.

Lemma names_new : Url.names key (key +:+ "=" +:+ val) = true.
Proof.
  unfold Url.names, Url.param_key.
  change (key +:+ "=" +:+ val) with (key +:+ String "=" val).
  rewrite partition_append by exact key_no_eq. simpl. apply String.eqb_refl.
Qed.

Lemma set_param_has (ps : list string) :
  Url.has_param key (Url.set_param key val ps) = true.
Proof.
  apply existsb_exists. exists (key +:+ "=" +:+ val).
  split; [apply set_param_new | apply names_new].
Qed.

Lemma set_param_others (ps : list string) :
  List.filter (fun p => negb (Url.names key p)) (Url.set_param key val ps)
  = List.filter (fun p => negb (Url.names key p)) ps.
Proof.
  unfold Url.set_param. destruct (Url.has_param key ps) eqn:E.
  - clear E. induction ps as [|p ps IH]; [reflexivity|].
    cbn [List.filter List.map].
    destruct (Url.names key p) eqn:Ep; cbn [negb].
    + rewrite names_new. cbn [negb]. exact IH.
    + rewrite Ep. cbn [negb]. now rewrite IH.
  - clear E. induction ps as [|p ps IH]; cbn [List.filter List.app].
    + now rewrite names_new.
    + rewrite IH. reflexivity.
Qed.

Hypothesis key_no_amp : Str.mem "&" key = false.
Hypothesis val_no_amp : Str.mem "&" val = false.

Lemma set_param_pieces (ps : list string) :
  Forall (fun p => Str.mem "&" p = false) ps ->
  Forall (fun p => Str.mem "&" p = false) (Url.set_param key val ps).
Proof.
  assert (Hnew : Str.mem "&" (key +:+ "=" +:+ val) = false).
  { rewrite !mem_append, key_no_amp, val_no_amp. reflexivity. }
  intros Hall. unfold Url.set_param. destruct (Url.has_param key ps).
  - induction Hall as [|p ps Hp Hall IH]; simpl; constructor; [|exact IH].
    now destruct (Url.names key p).
  - apply Forall_app. split; [exact Hall | now constructor].
Qed.

End SetParam.

(** ** The substitution of a query parameter *)

Section ReplaceQueryParam.

Variables (url key : string) (val : Z).

Lemma replace_query_param_path :
  Url.path (replace_query_param url key val) = Url.path url.
Proof. apply path_unsplit, path_no_query_mark. Qed.

Lemma replace_query_param_same :
  Url.carries key (Str.of_int val) url = true ->
  replace_query_param url key val = url.
Proof.
  unfold Url.carries. intros H. apply andb_prop in H as [Hh Hall].
  unfold replace_query_param. rewrite set_param_same by assumption.
  apply unsplit_params. intros E. rewrite E in Hh. discriminate.
Qed.

Hypothesis key_no_eq : Str.mem "=" key = false.
Hypothesis key_no_amp : Str.mem "&" key = false.

Lemma replace_query_param_params :
  Url.params (replace_query_param url key val)
  = Url.set_param key (Str.of_int val) (Url.params url).
Proof.
  apply params_unsplit.
  - apply path_no_query_mark.
  - apply join_not_empty with (p := key +:+ "=" +:+ Str.of_int val).
    + apply set_param_new.
    + apply new_not_empty.
  - apply set_param_pieces; [assumption | now apply of_int_mem |].
    apply params_pieces.
Qed.

Lemma replace_query_param_carries :
  Url.carries key (Str.of_int val) (replace_query_param url key val) = true.
Proof.
  unfold Url.carries. rewrite replace_query_param_params.
  rewrite set_param_has by assumption. apply forallb_forall.
  intros p Hin. destruct (Url.names key p) eqn:Ep; [|reflexivity].
  rewrite (set_param_named key _ _ p Hin Ep). apply String.eqb_refl.
Qed.

End ReplaceQueryParam.

Lemma request_url_some (r : Request.t) :
  request_url (Some r) = Request.build_absolute_uri r.
Proof.
  unfold request_url. destruct (String.eqb _ "") eqn:E; [|reflexivity].
  apply String.eqb_eq in E. now rewrite E.
Qed.

Lemma build_link_some (self : PageNumberPagination.t) (i : Z) :
  i <> 0 ->
  PageNumberPagination.build_link self (Some i)
  = Some (replace_query_param (request_url (PageNumberPagination.request self)) "page" i).
Proof.
  intros H. unfold PageNumberPagination.build_link.
  destruct (Z.eqb_spec i 0); [contradiction | reflexivity].
Qed.

(** ** The paginated response *)

Lemma get_paginated_response_returns {Data} (self : PageNumberPagination.t)
    (data : Data) :
  Page.defined (PageNumberPagination.page self) ->
  exists env,
    result (PageNumberPagination.get_paginated_response self data) = Return env.
Proof.
  destruct self as [request p]. unfold Page.defined.
  page_cases p; intros [[Hn Hn'] [Hp Hp']]; unfold result; simpl; eauto;
    try (destruct (Hn eq_refl); discriminate);
    try (destruct (Hp eq_refl); discriminate).
Qed.

Lemma next_and_previous_result (self : PageNumberPagination.t)
    (next previous : option Z) :
  result (PageNumberPagination.next_and_previous self) = Return (next, previous) ->
  let p := PageNumberPagination.page self in
  (Page.has_next_answer p = false /\ next = None \/
   exists n, Page.has_next_answer p = true /\
             Page.next_page_number_answer p = Return n /\ next = Some n) /\
  (Page.has_previous_answer p = false /\ previous = None \/
   exists n, Page.has_previous_answer p = true /\
             Page.previous_page_number_answer p = Return n /\ previous = Some n).
Proof.
  destruct self as [request p].
  page_cases p; unfold result; simpl; intros E; inversion E; subst;
    split; ((left; split; reflexivity) || (right; eexists; repeat split)).
Qed.

Lemma get_paginated_response_envelope {Data} (self : PageNumberPagination.t)
    (data : Data) (env : PageNumberPagination.Response Data) :
  result (PageNumberPagination.get_paginated_response self data) = Return env ->
  exists next previous,
    result (PageNumberPagination.next_and_previous self) = Return (next, previous) /\
    env = {|
      PageNumberPagination.results := data;
      PageNumberPagination.meta := {| PageNumberPagination.pagination := [
        ("page", Page.number (PageNumberPagination.page self));
        ("pages", Paginator.num_pages (Page.paginator (PageNumberPagination.page self)));
        ("count", Paginator.count (Page.paginator (PageNumberPagination.page self)))
      ] |};
      PageNumberPagination.links := [
        ("first", PageNumberPagination.build_link self (Some 1));
        ("last", PageNumberPagination.build_link self
                   (Some (Paginator.num_pages (Page.paginator (PageNumberPagination.page self)))));
        ("next", PageNumberPagination.build_link self next);
        ("prev", PageNumberPagination.build_link self previous)
      ]
    |}.
Proof.
  unfold PageNumberPagination.get_paginated_response.
  destruct (PageNumberPagination.next_and_previous self) as [t [[next previous]|]];
    unfold result; simpl; intros E; inversion E; subst; eauto.
Qed.

(** C1: in the envelope returned by [get_paginated_response], the [next]
    link is null when [has_next()] is false and is
    [build_link(next_page_number())] otherwise, and the [prev] link is null
    when [has_previous()] is false and is
    [build_link(previous_page_number())] otherwise; an envelope is returned
    for every page whose accessors are defined where the booleans hold. *)
Theorem links_next_prev {Data} (self : PageNumberPagination.t) (data : Data) :
  let p := PageNumberPagination.page self in
  (Page.defined p ->
   exists env,
     result (PageNumberPagination.get_paginated_response self data) = Return env) /\
  forall env,
    result (PageNumberPagination.get_paginated_response self data) = Return env ->
    (Page.has_next_answer p = false ->
     od_get "next" (PageNumberPagination.links env) = Some None) /\
    (Page.has_next_answer p = true ->
     exists n, Page.next_page_number_answer p = Return n /\
               od_get "next" (PageNumberPagination.links env)
               = Some (PageNumberPagination.build_link self (Some n))) /\
    (Page.has_previous_answer p = false ->
     od_get "prev" (PageNumberPagination.links env) = Some None) /\
    (Page.has_previous_answer p = true ->
     exists n, Page.previous_page_number_answer p = Return n /\
               od_get "prev" (PageNumberPagination.links env)
               = Some (PageNumberPagination.build_link self (Some n))).
Proof.
  intros p. split; [apply get_paginated_response_returns|].
  intros env E.
  apply get_paginated_response_envelope in E as (next & previous & E & ->).
  apply next_and_previous_result in E as [Hn Hp]. fold p in Hn, Hp. simpl.
  repeat split; intros H.
  - destruct Hn as [[_ ->]|(n & Hn & _)]; [reflexivity | congruence].
  - destruct Hn as [[Hn _]|(n & _ & Hn & ->)]; [congruence | eauto].
  - destruct Hp as [[_ ->]|(n & Hp & _)]; [reflexivity | congruence].
  - destruct Hp as [[Hp _]|(n & _ & Hp & ->)]; [congruence | eauto].
Qed.

Lemma page2of5_defined : Page.defined page2of5.
Proof. repeat split; simpl; eauto. Defined.

Lemma empty_page_defined : Page.defined empty_page.
Proof.
  repeat split; simpl; try discriminate; intros [n H]; discriminate.
Defined.

Lemma links_next_prev_witness :
  exists env,
    result (PageNumberPagination.get_paginated_response
              (with_request things page2of5) [10; 20]) = Return env /\
    od_get "next" (PageNumberPagination.links env)
    = Some (Some "https://api.example.com/things?page=3") /\
    od_get "prev" (PageNumberPagination.links env)
    = Some (Some "https://api.example.com/things?page=1").
Proof.
  destruct (links_next_prev (with_request things page2of5) [10; 20]) as [Hret Hlinks].
  destruct (Hret page2of5_defined) as [env E]. exists env. split; [exact E|].
  destruct (Hlinks env E) as (_ & Hn & _ & Hp).
  destruct (Hn eq_refl) as (n & En & ->). destruct (Hp eq_refl) as (m & Em & ->).
  inversion En. inversion Em. split; reflexivity.
Defined.

(** C2: [build_link] returns null when the index is null, and for a page
    whose paginator has no pages the [last] link of the returned envelope is
    null, the index zero being falsy. *)
Theorem build_link_null_and_last {Data} (self : PageNumberPagination.t)
    (data : Data) :
  let p := PageNumberPagination.page self in
  PageNumberPagination.build_link self None = None /\
  PageNumberPagination.build_link self (Some 0) = None /\
  (Page.defined p ->
   exists env,
     result (PageNumberPagination.get_paginated_response self data) = Return env) /\
  forall env,
    Paginator.num_pages (Page.paginator p) = 0 ->
    result (PageNumberPagination.get_paginated_response self data) = Return env ->
    od_get "last" (PageNumberPagination.links env) = Some None.
Proof.
  intros p. repeat split; [apply get_paginated_response_returns|].
  intros env Hz E.
  apply get_paginated_response_envelope in E as (next & previous & _ & ->).
  simpl. fold p. rewrite Hz. reflexivity.
Qed.

Lemma build_link_null_and_last_witness :
  exists env,
    result (PageNumberPagination.get_paginated_response
              (with_request things empty_page) (@nil Z)) = Return env /\
    od_get "last" (PageNumberPagination.links env) = Some None.
Proof.
  destruct (build_link_null_and_last (with_request things empty_page) (@nil Z))
    as (_ & _ & Hret & Hlast).
  destruct (Hret empty_page_defined) as [env E]. exists env.
  split; [exact E | exact (Hlast env eq_refl E)].
Defined.

(** C3: the [first] link of the returned envelope is [build_link(1)], and
    it is not null when there is at least one page. *)
Theorem links_first {Data} (self : PageNumberPagination.t) (data : Data) :
  let p := PageNumberPagination.page self in
  (Page.defined p ->
   exists env,
     result (PageNumberPagination.get_paginated_response self data) = Return env) /\
  forall env,
    result (PageNumberPagination.get_paginated_response self data) = Return env ->
    od_get "first" (PageNumberPagination.links env)
    = Some (PageNumberPagination.build_link self (Some 1)) /\
    (Paginator.num_pages (Page.paginator p) >= 1 ->
     od_get "first" (PageNumberPagination.links env) <> Some None).
Proof.
  intros p. split; [apply get_paginated_response_returns|].
  intros env E.
  apply get_paginated_response_envelope in E as (next & previous & _ & ->).
  simpl. split; [reflexivity|]. intros _.
  rewrite build_link_some by discriminate. discriminate.
Qed.

Lemma links_first_witness :
  exists env,
    result (PageNumberPagination.get_paginated_response
              (with_request things page2of5) [10; 20]) = Return env /\
    od_get "first" (PageNumberPagination.links env)
    = Some (Some "https://api.example.com/things?page=1") /\
    od_get "first" (PageNumberPagination.links env) <> Some None.
Proof.
  destruct (links_first (with_request things page2of5) [10; 20]) as [Hret Hfirst].
  destruct (Hret page2of5_defined) as [env E]. exists env. split; [exact E|].
  destruct (Hfirst env E) as [H1 H2]. split; [rewrite H1; reflexivity|].
  apply H2. simpl. lia.
Defined.

(** C4: the returned envelope carries the items unchanged under [results],
    and its [meta.pagination] is [page], [pages] and [count], read from the
    page's number and the paginator's page count and item count. *)
Theorem results_and_meta {Data} (self : PageNumberPagination.t) (data : Data) :
  let p := PageNumberPagination.page self in
  (Page.defined p ->
   exists env,
     result (PageNumberPagination.get_paginated_response self data) = Return env) /\
  forall env,
    result (PageNumberPagination.get_paginated_response self data) = Return env ->
    PageNumberPagination.results env = data /\
    PageNumberPagination.pagination (PageNumberPagination.meta env)
    = [("page", Page.number p);
       ("pages", Paginator.num_pages (Page.paginator p));
       ("count", Paginator.count (Page.paginator p))].
Proof.
  intros p. split; [apply get_paginated_response_returns|].
  intros env E.
  apply get_paginated_response_envelope in E as (next & previous & _ & ->).
  split; reflexivity.
Qed.

Lemma results_and_meta_witness :
  exists env,
    result (PageNumberPagination.get_paginated_response
              (with_request things page2of5) [10; 20]) = Return env /\
    PageNumberPagination.results env = [10; 20] /\
    PageNumberPagination.pagination (PageNumberPagination.meta env)
    = [("page", 2); ("pages", 5); ("count", 98)].
Proof.
  destruct (results_and_meta (with_request things page2of5) [10; 20]) as [Hret Hm].
  destruct (Hret page2of5_defined) as [env E]. exists env.
  split; [exact E | exact (Hm env E)].
Defined.

(** C10: the [first] link of the returned envelope is never null, also when
    the paginator has no pages: it is built from the index one, which is not
    falsy; without a request it is the relative link [?page=1]. *)
Theorem links_first_never_null {Data} (self : PageNumberPagination.t)
    (data : Data) :
  let p := PageNumberPagination.page self in
  (Page.defined p ->
   exists env,
     result (PageNumberPagination.get_paginated_response self data) = Return env) /\
  forall env,
    result (PageNumberPagination.get_paginated_response self data) = Return env ->
    (exists link, od_get "first" (PageNumberPagination.links env) = Some (Some link)) /\
    (PageNumberPagination.request self = None ->
     od_get "first" (PageNumberPagination.links env) = Some (Some "?page=1")).
Proof.
  intros p. split; [apply get_paginated_response_returns|].
  intros env E.
  apply get_paginated_response_envelope in E as (next & previous & _ & ->).
  simpl. rewrite build_link_some by discriminate. split; [eauto|].
  intros ->. reflexivity.
Qed.

Lemma links_first_never_null_witness :
  exists env,
    result (PageNumberPagination.get_paginated_response
              (no_request empty_page) (@nil Z)) = Return env /\
    od_get "first" (PageNumberPagination.links env) = Some (Some "?page=1").
Proof.
  destruct (links_first_never_null (no_request empty_page) (@nil Z)) as [Hret Hfirst].
  destruct (Hret empty_page_defined) as [env E]. exists env. split; [exact E|].
  destruct (Hfirst env E) as [_ H]. exact (H eq_refl).
Defined.

(** ** Links without a request *)

Lemma replace_query_param_relative (key : string) (n : Z) :
  replace_query_param "" key n = "?" +:+ key +:+ "=" +:+ Str.of_int n.
Proof. reflexivity. Qed.

Lemma next_link_relative (context : gmap string (option Request.t)) (p : Page.t) :
  dict_get context "request" = None ->
  result (NextPageLinkField.to_representation context p)
  = (if Page.has_next_answer p
     then match Page.next_page_number_answer p with
          | Return n => Return (Some ("?page=" +:+ Str.of_int n))
          | Raise => Raise
          end
     else Return None).
Proof.
  intros H. unfold NextPageLinkField.to_representation. rewrite H.
  page_cases p; reflexivity.
Qed.

Lemma previous_link_relative (context : gmap string (option Request.t)) (p : Page.t) :
  dict_get context "request" = None ->
  result (PreviousPageLinkField.to_representation context p)
  = (if Page.has_previous_answer p
     then match Page.previous_page_number_answer p with
          | Return n => Return (Some ("?page=" +:+ Str.of_int n))
          | Raise => Raise
          end
     else Return None).
Proof.
  intros H. unfold PreviousPageLinkField.to_representation. rewrite H.
  page_cases p; reflexivity.
Qed.

Lemma build_link_relative (self : PageNumberPagination.t) (index : option Z) :
  PageNumberPagination.request self = None ->
  PageNumberPagination.build_link self index
  = match index with
    | None => None
    | Some i => if i =? 0 then None else Some ("?page=" +:+ Str.of_int i)
    end.
Proof.
  intros H. unfold PageNumberPagination.build_link. rewrite H. reflexivity.
Qed.

(** C5: without a request nothing fails and the base URL is the empty
    string: [build_link] gives null or [?page=N] for its index [N]; the two
    link fields return, on a page whose accessors are defined, null or
    [?page=N] for the next or previous page number [N]; and every link of the
    returned envelope that is not null reads [?page=N]. *)
Theorem no_request_relative_links {Data} (self : PageNumberPagination.t)
    (context : gmap string (option Request.t)) (data : Data) :
  PageNumberPagination.request self = None ->
  dict_get context "request" = None ->
  let p := PageNumberPagination.page self in
  (forall index,
     PageNumberPagination.build_link self index = None \/
     exists n, index = Some n /\
       PageNumberPagination.build_link self index = Some ("?page=" +:+ Str.of_int n)) /\
  (Page.defined p ->
   (exists v, result (NextPageLinkField.to_representation context p) = Return v) /\
   (exists v, result (PreviousPageLinkField.to_representation context p) = Return v) /\
   (exists env,
      result (PageNumberPagination.get_paginated_response self data) = Return env)) /\
  (forall link,
     result (NextPageLinkField.to_representation context p) = Return (Some link) ->
     exists n, Page.next_page_number_answer p = Return n /\
               link = "?page=" +:+ Str.of_int n) /\
  (forall link,
     result (PreviousPageLinkField.to_representation context p) = Return (Some link) ->
     exists n, Page.previous_page_number_answer p = Return n /\
               link = "?page=" +:+ Str.of_int n) /\
  (forall env,
     result (PageNumberPagination.get_paginated_response self data) = Return env ->
     forall name link,
       In (name, Some link) (PageNumberPagination.links env) ->
       exists n, link = "?page=" +:+ Str.of_int n).
Proof.
  intros Hreq Hctx p.
  assert (Hb : forall index,
    PageNumberPagination.build_link self index = None \/
    exists n, index = Some n /\
      PageNumberPagination.build_link self index = Some ("?page=" +:+ Str.of_int n)).
  { intros index. rewrite build_link_relative by exact Hreq.
    destruct index as [i|]; [|now left].
    destruct (i =? 0); [now left | right; eauto]. }
  split; [exact Hb|]. split; [|split; [|split]].
  - intros Hd. rewrite next_link_relative, previous_link_relative by exact Hctx.
    split; [|split; [|now apply get_paginated_response_returns]].
    + destruct Hd as [[Hn _] _].
      destruct (Page.has_next_answer p); [|eauto].
      destruct (Hn eq_refl) as [n ->]. eauto.
    + destruct Hd as [_ [Hp _]].
      destruct (Page.has_previous_answer p); [|eauto].
      destruct (Hp eq_refl) as [n ->]. eauto.
  - intros link. rewrite next_link_relative by exact Hctx.
    destruct (Page.has_next_answer p); [|discriminate].
    destruct (Page.next_page_number_answer p) as [n|]; [|discriminate].
    intros E. inversion E. eauto.
  - intros link. rewrite previous_link_relative by exact Hctx.
    destruct (Page.has_previous_answer p); [|discriminate].
    destruct (Page.previous_page_number_answer p) as [n|]; [|discriminate].
    intros E. inversion E. eauto.
  - intros env E name link.
    apply get_paginated_response_envelope in E as (next & previous & _ & ->).
    cbn [PageNumberPagination.links In].
    intros [H|[H|[H|[H|[]]]]]; apply (f_equal snd) in H; cbn [snd] in H;
      match type of H with
      | PageNumberPagination.build_link _ ?i = _ =>
          destruct (Hb i) as [Hnone|(n & _ & Hsome)]
      end; try congruence; exists n; congruence.
Qed.

Lemma no_request_relative_links_witness :
  PageNumberPagination.build_link (no_request page2of5) (Some 5) = Some "?page=5" /\
  result (NextPageLinkField.to_representation ∅ page2of5) = Return (Some "?page=3") /\
  exists env,
    result (PageNumberPagination.get_paginated_response
              (no_request page2of5) [10; 20]) = Return env /\
    forall name link,
      In (name, Some link) (PageNumberPagination.links env) ->
      exists n, link = "?page=" +:+ Str.of_int n.
Proof.
  assert (Hctx : dict_get (∅ : gmap string (option Request.t)) "request" = None)
    by reflexivity.
  destruct (no_request_relative_links (no_request page2of5) ∅ [10; 20]
              eq_refl Hctx) as (_ & Hret & _ & _ & Henv).
  split; [reflexivity|]. split; [reflexivity|].
  destruct (Hret page2of5_defined) as (_ & _ & env & E).
  exists env. split; [exact E | exact (Henv env E)].
Defined.

(** ** Links with a request *)

(** C7: for every index that is not null for [build_link], that is, neither
    [None] nor the falsy zero, [build_link] keeps the path of the request URL,
    replaces the value of an existing [page] parameter, appends [page] when
    the URL has none, and preserves the other parameters untouched; on a URL
    without a query string it yields [<url>?page=N], and on
    [<url>?page=1&sort=name] it yields [<url>?page=N&sort=name]. *)
Theorem build_link_substitutes (self : PageNumberPagination.t) (i : Z) :
  i <> 0 ->
  let url := request_url (PageNumberPagination.request self) in
  let new := "page=" +:+ Str.of_int i in
  exists link,
    PageNumberPagination.build_link self (Some i) = Some link /\
    Url.path link = Url.path url /\
    (Url.has_param "page" (Url.params url) = true ->
     Url.params link
     = map (fun p => if Url.names "page" p then new else p) (Url.params url)) /\
    (Url.has_param "page" (Url.params url) = false ->
     Url.params link = Url.params url ++ [new]) /\
    List.filter (fun p => negb (Url.names "page" p)) (Url.params link)
    = List.filter (fun p => negb (Url.names "page" p)) (Url.params url) /\
    (Str.mem "?" url = false -> link = url +:+ "?page=" +:+ Str.of_int i) /\
    (forall base,
       Str.mem "?" base = false ->
       url = base +:+ "?page=1&sort=name" ->
       link = base +:+ "?page=" +:+ Str.of_int i +:+ "&sort=name").
Proof.
  intros Hi url new. exists (replace_query_param url "page" i).
  split; [now apply build_link_some|].
  split; [apply replace_query_param_path|].
  rewrite replace_query_param_params by reflexivity.
  split; [|split; [|split; [|split]]].
  - intros H. unfold Url.set_param. now rewrite H.
  - intros H. unfold Url.set_param. now rewrite H.
  - now apply set_param_others.
  - intros H. unfold replace_query_param, Url.params, Url.query, Url.path.
    rewrite partition_absent by exact H. reflexivity.
  - intros base Hb ->.
    unfold replace_query_param, Url.params, Url.query, Url.path.
    change (base +:+ "?page=1&sort=name")
      with (base +:+ String "?" "page=1&sort=name").
    rewrite partition_append by exact Hb. reflexivity.
Qed.

Lemma build_link_substitutes_witness :
  PageNumberPagination.build_link (with_request things page2of5) (Some 3)
  = Some "https://api.example.com/things?page=3" /\
  PageNumberPagination.build_link (with_request things_sorted page2of5) (Some 3)
  = Some "https://api.example.com/things?page=3&sort=name".
Proof.
  split.
  - destruct (build_link_substitutes (with_request things page2of5) 3)
      as (link & -> & _ & _ & _ & _ & H & _); [lia|].
    rewrite (H eq_refl). reflexivity.
  - destruct (build_link_substitutes (with_request things_sorted page2of5) 3)
      as (link & -> & _ & _ & _ & _ & _ & H); [lia|].
    rewrite (H "https://api.example.com/things" eq_refl eq_refl). reflexivity.
Defined.

(** In the substitution rule as modelled, a request URL that already has
    [page=p] is what [build_link(p)] yields, and the link that [build_link(p)]
    yields has [page=p]. *)
Lemma build_link_fixed_point (self : PageNumberPagination.t) (i : Z) :
  i <> 0 ->
  let url := request_url (PageNumberPagination.request self) in
  (Url.carries "page" (Str.of_int i) url = true ->
   PageNumberPagination.build_link self (Some i) = Some url) /\
  (forall link,
     PageNumberPagination.build_link self (Some i) = Some link ->
     Url.carries "page" (Str.of_int i) link = true /\
     PageNumberPagination.build_link
       (with_request {| Request.build_absolute_uri := link |}
                     (PageNumberPagination.page self)) (Some i)
     = Some link).
Proof.
  intros Hi url. split.
  - intros H. rewrite build_link_some by exact Hi.
    fold url. now rewrite replace_query_param_same.
  - intros link E. rewrite build_link_some in E by exact Hi.
    injection E as <-. fold url.
    assert (Hc : Url.carries "page" (Str.of_int i) (replace_query_param url "page" i)
                 = true) by now apply replace_query_param_carries.
    split; [exact Hc|].
    rewrite build_link_some by exact Hi.
    unfold with_request. cbn [PageNumberPagination.request].
    rewrite request_url_some. cbn [Request.build_absolute_uri].
    now rewrite replace_query_param_same.
Qed.

(** C6: query-parameter substitution is idempotent: for every page index
    [p] that is not null for [build_link], that is, neither [None] nor the
    falsy zero, and every request URL that already has [page=p],
    [build_link(p)] yields the same URL aside from the order of the
    parameters. *)
Theorem build_link_idempotent (self : PageNumberPagination.t) (i : Z) :
  i <> 0 ->
  let url := request_url (PageNumberPagination.request self) in
  Url.carries "page" (Str.of_int i) url = true ->
  exists link,
    PageNumberPagination.build_link self (Some i) = Some link /\
    Url.same_modulo_order link url.
Proof.
  intros Hi url Hc. exists url.
  split; [now apply build_link_fixed_point|].
  split; [reflexivity | apply Permutation_refl].
Qed.

Lemma build_link_idempotent_witness :
  exists link,
    PageNumberPagination.build_link (with_request things_page3 page2of5) (Some 3)
    = Some link /\
    Url.path link = "https://api.example.com/things" /\
    Permutation (Url.params link) ["page=3"; "sort=name"].
Proof.
  destruct (build_link_idempotent (with_request things_page3 page2of5) 3)
    as (link & E & Hpath & Hparams); [lia | reflexivity |].
  exists link. split; [exact E|]. split; [exact Hpath|].
  apply (Permutation_trans Hparams). apply perm_swap.
Defined.

(** ** Guarded accessors *)

(** C9: every operation calls [next_page_number()] only after [has_next()]
    has answered true and [previous_page_number()] only after
    [has_previous()] has answered true; so on a page whose accessors are
    defined exactly where the booleans hold, no operation calls an undefined
    accessor, and each returns. *)
Theorem accessors_guarded {Data} (self : PageNumberPagination.t)
    (context : gmap string (option Request.t)) (data : Data) :
  let p := PageNumberPagination.page self in
  safe_on p (NextPageLinkField.to_representation context p) /\
  safe_on p (NextPageField.to_representation p) /\
  safe_on p (PreviousPageLinkField.to_representation context p) /\
  safe_on p (PreviousPageField.to_representation p) /\
  safe_on p (PageField.to_representation p) /\
  safe_on p (PaginationSerializer.to_representation context p) /\
  safe_on p (PageNumberPagination.next_and_previous self) /\
  safe_on p (PageNumberPagination.get_paginated_response self data).
Proof.
  destruct self as [request p]. cbn [PageNumberPagination.page].
  repeat match goal with |- _ /\ _ => split end;
    destruct p as [? ? [|] [|] [?|] [?|]]; safe_case.
Qed.

Example unguarded_call : guarded [has_next_returned false; next_page_number_called] = false.
Proof. reflexivity. Qed.

Lemma accessors_guarded_witness :
  guarded (trace (PageNumberPagination.get_paginated_response
                    (with_request things page2of5) [10; 20])) = true /\
  evaluates_defined page2of5
    (trace (PaginationSerializer.to_representation ∅ page2of5)) /\
  exists v, result (NextPageLinkField.to_representation ∅ page2of5) = Return v.
Proof.
  destruct (accessors_guarded (with_request things page2of5) ∅ [10; 20])
    as ([_ Hlink] & _ & _ & _ & _ & [_ Hflat] & _ & [Hg _]).
  split; [exact Hg|].
  split; [exact (proj1 (Hflat page2of5_defined)) | exact (proj2 (Hlink page2of5_defined))].
Defined.

(** ** The legacy serializer and the envelope *)

Lemma serializer_returns (context : gmap string (option Request.t)) (p : Page.t) :
  Page.defined p ->
  exists flat, result (PaginationSerializer.to_representation context p) = Return flat.
Proof.
  unfold Page.defined.
  page_cases p; intros [[Hn Hn'] [Hp Hp']]; unfold result; simpl; eauto;
    try (destruct (Hn eq_refl); discriminate);
    try (destruct (Hp eq_refl); discriminate).
Qed.

(** With the same request in the serializer's context as on the paginator,
    what the legacy serializer returns is what the envelope has, the links
    for every page number that is not zero. *)
Lemma flat_matches_envelope_nonzero {Data} (self : PageNumberPagination.t)
    (context : gmap string (option Request.t)) (data : Data) :
  dict_get context "request" = PageNumberPagination.request self ->
  let p := PageNumberPagination.page self in
  (Page.defined p ->
   (exists flat,
      result (PaginationSerializer.to_representation context p) = Return flat) /\
   (exists env,
      result (PageNumberPagination.get_paginated_response self data) = Return env)) /\
  forall flat env next previous,
    result (PaginationSerializer.to_representation context p) = Return flat ->
    result (PageNumberPagination.next_and_previous self) = Return (next, previous) ->
    result (PageNumberPagination.get_paginated_response self data) = Return env ->
    PaginationSerializer.next flat = next /\
    PaginationSerializer.previous flat = previous /\
    (next <> Some 0 ->
     od_get "next" (PageNumberPagination.links env)
     = Some (PaginationSerializer.next_link flat)) /\
    (previous <> Some 0 ->
     od_get "prev" (PageNumberPagination.links env)
     = Some (PaginationSerializer.previous_link flat)) /\
    od_get "page" (PageNumberPagination.pagination (PageNumberPagination.meta env))
    = Some (PaginationSerializer.page flat) /\
    od_get "count" (PageNumberPagination.pagination (PageNumberPagination.meta env))
    = Some (PaginationSerializer.count flat) /\
    od_get "pages" (PageNumberPagination.pagination (PageNumberPagination.meta env))
    = Some (PaginationSerializer.total flat).
Proof.
  intros Hctx p. split.
  { intros Hd. split;
      [now apply serializer_returns | now apply get_paginated_response_returns]. }
  intros flat env next previous Hflat Hnp Henv.
  apply get_paginated_response_envelope in Henv as (next' & previous' & Hnp' & ->).
  rewrite Hnp in Hnp'. injection Hnp' as <- <-.
  subst p. destruct self as [request p]. cbn [PageNumberPagination.request] in Hctx.
  cbn [PageNumberPagination.page PageNumberPagination.links
       PageNumberPagination.meta PageNumberPagination.pagination] in *.
  unfold PaginationSerializer.to_representation,
    NextPageLinkField.to_representation,
    PreviousPageLinkField.to_representation in Hflat.
  rewrite Hctx in Hflat.
  destruct p as [? ? [|] [|] [?|] [?|]]; unfold result in *; simpl in *;
    try discriminate;
    injection Hflat as <-; injection Hnp as <- <-; simpl;
    repeat split; intros Hz; try reflexivity;
    (rewrite build_link_some by congruence); reflexivity.
Qed.

Lemma page2of5_one_based : Page.one_based page2of5.
Proof. split; simpl; intros n E; injection E as <-; lia. Defined.

(** C8: for every page, numbered from one, and with the same request in the
    serializer's context as on the paginator, the legacy flat serializer
    exposes exactly the navigation values of the envelope: [next] and
    [previous] are the envelope's conditional page numbers, [next_link] and
    [previous_link] are its [next] and [prev] links, and [page], [count] and
    [total] are the [page], [count] and [pages] of its [meta.pagination];
    both are returned on a page whose accessors are defined where the
    booleans hold. *)
Theorem flat_matches_envelope {Data} (self : PageNumberPagination.t)
    (context : gmap string (option Request.t)) (data : Data) :
  dict_get context "request" = PageNumberPagination.request self ->
  let p := PageNumberPagination.page self in
  Page.one_based p ->
  (Page.defined p ->
   (exists flat,
      result (PaginationSerializer.to_representation context p) = Return flat) /\
   (exists env,
      result (PageNumberPagination.get_paginated_response self data) = Return env)) /\
  forall flat env next previous,
    result (PaginationSerializer.to_representation context p) = Return flat ->
    result (PageNumberPagination.next_and_previous self) = Return (next, previous) ->
    result (PageNumberPagination.get_paginated_response self data) = Return env ->
    PaginationSerializer.next flat = next /\
    PaginationSerializer.previous flat = previous /\
    od_get "next" (PageNumberPagination.links env)
    = Some (PaginationSerializer.next_link flat) /\
    od_get "prev" (PageNumberPagination.links env)
    = Some (PaginationSerializer.previous_link flat) /\
    od_get "page" (PageNumberPagination.pagination (PageNumberPagination.meta env))
    = Some (PaginationSerializer.page flat) /\
    od_get "count" (PageNumberPagination.pagination (PageNumberPagination.meta env))
    = Some (PaginationSerializer.count flat) /\
    od_get "pages" (PageNumberPagination.pagination (PageNumberPagination.meta env))
    = Some (PaginationSerializer.total flat).
Proof.
  intros Hctx p [Hbn Hbp].
  destruct (flat_matches_envelope_nonzero self context data Hctx) as [Hret Heq].
  split; [exact Hret|].
  intros flat env next previous Hflat Hnp Henv.
  destruct (Heq flat env next previous Hflat Hnp Henv)
    as (Hn & Hp & Hnl & Hpl & Hpage & Hcount & Htotal).
  apply next_and_previous_result in Hnp as [Hnext Hprevious].
  fold p in Hnext, Hprevious.
  repeat split; try assumption.
  - apply Hnl. destruct Hnext as [[_ ->]|(n & _ & En & ->)]; [discriminate|].
    intros E. injection E as ->. specialize (Hbn 0 En). lia.
  - apply Hpl. destruct Hprevious as [[_ ->]|(n & _ & En & ->)]; [discriminate|].
    intros E. injection E as ->. specialize (Hbp 0 En). lia.
Qed.

Lemma flat_matches_envelope_witness :
  exists flat env,
    result (PaginationSerializer.to_representation {[ "request" := Some things ]}
              page2of5) = Return flat /\
    result (PageNumberPagination.get_paginated_response
              (with_request things page2of5) [10; 20]) = Return env /\
    PaginationSerializer.next flat = Some 3 /\
    PaginationSerializer.previous flat = Some 1 /\
    od_get "next" (PageNumberPagination.links env)
    = Some (PaginationSerializer.next_link flat) /\
    od_get "prev" (PageNumberPagination.links env)
    = Some (PaginationSerializer.previous_link flat) /\
    od_get "pages" (PageNumberPagination.pagination (PageNumberPagination.meta env))
    = Some (PaginationSerializer.total flat).
Proof.
  assert (Hctx : dict_get ({[ "request" := Some things ]}
                            : gmap string (option Request.t)) "request"
                 = PageNumberPagination.request (with_request things page2of5))
    by reflexivity.
  destruct (flat_matches_envelope (with_request things page2of5)
              {[ "request" := Some things ]} [10; 20] Hctx page2of5_one_based)
    as [Hret Heq].
  destruct (Hret page2of5_defined) as [[flat Hflat] [env Henv]].
  exists flat, env. split; [exact Hflat|]. split; [exact Henv|].
  destruct (Heq flat env (Some 3) (Some 1) Hflat eq_refl Henv)
    as (Hn & Hp & Hnl & Hpl & _ & _ & Ht).
  repeat split; assumption.
Defined.

(** ** End-to-end scenarios *)

Example envelope_page2of5 :
  result (PageNumberPagination.get_paginated_response
            (with_request things page2of5) [10; 20])
  = Return {|
      PageNumberPagination.results := [10; 20];
      PageNumberPagination.meta := {| PageNumberPagination.pagination :=
        [("page", 2); ("pages", 5); ("count", 98)] |};
      PageNumberPagination.links :=
        [("first", Some "https://api.example.com/things?page=1");
         ("last", Some "https://api.example.com/things?page=5");
         ("next", Some "https://api.example.com/things?page=3");
         ("prev", Some "https://api.example.com/things?page=1")]
    |}.
Proof. reflexivity. Qed.

Example envelope_empty_page :
  result (PageNumberPagination.get_paginated_response
            (no_request empty_page) (@nil Z))
  = Return {|
      PageNumberPagination.results := [];
      PageNumberPagination.meta := {| PageNumberPagination.pagination :=
        [("page", 1); ("pages", 0); ("count", 0)] |};
      PageNumberPagination.links :=
        [("first", Some "?page=1"); ("last", None); ("next", None); ("prev", None)]
    |}.
Proof. reflexivity. Qed.

Example other_parameters_untouched :
  replace_query_param "https://api.example.com/things?a&&sort=name&page=7" "page" (-13)
  = "https://api.example.com/things?a&&sort=name&page=-13".
Proof. reflexivity. Qed.

(** ** Exceptions and the order of calls *)

(** X1: [get_paginated_response] raises exactly when [has_next()] holds and
    [next_page_number()] raises, or [has_previous()] holds and
    [previous_page_number()] raises; and when the next page number raises,
    the call stops there, before [has_previous()] is asked. *)
Theorem envelope_raises_exactly {Data} (self : PageNumberPagination.t) (data : Data) :
  let p := PageNumberPagination.page self in
  (result (PageNumberPagination.get_paginated_response self data) = Raise <->
   Page.has_next_answer p = true /\ Page.next_page_number_answer p = Raise \/
   Page.has_previous_answer p = true /\ Page.previous_page_number_answer p = Raise) /\
  (Page.has_next_answer p = true -> Page.next_page_number_answer p = Raise ->
   trace (PageNumberPagination.get_paginated_response self data)
   = [has_next_returned true; next_page_number_called]).
Proof.
  destruct self as [request p]. cbn [PageNumberPagination.page]. split.
  - destruct p as [? ? [|] [|] [?|] [?|]]; unfold result; simpl;
      split; intros H; try discriminate; try reflexivity; auto;
      destruct H as [[? ?]|[? ?]]; discriminate.
  - destruct p as [? ? [|] [|] [?|] [?|]]; unfold trace; simpl;
      intros; try discriminate; reflexivity.
Qed.

Lemma envelope_raises_exactly_witness :
  result (PageNumberPagination.get_paginated_response
            (with_request things page_with_broken_next) [10; 20]) = Raise /\
  trace (PageNumberPagination.get_paginated_response
           (with_request things page_with_broken_next) [10; 20])
  = [has_next_returned true; next_page_number_called].
Proof.
  destruct (envelope_raises_exactly (with_request things page_with_broken_next)
              [10; 20]) as [Hr Ht].
  split; [apply Hr; left; split; reflexivity | exact (Ht eq_refl eq_refl)].
Defined.

(** X2: when [get_paginated_response] returns, it has asked [has_next()]
    once, then [next_page_number()] once if the answer was true, then
    [has_previous()] once, then [previous_page_number()] once if the answer
    was true, and nothing else of these. *)
Theorem envelope_calls_once {Data} (self : PageNumberPagination.t) (data : Data)
    (env : PageNumberPagination.Response Data) :
  result (PageNumberPagination.get_paginated_response self data) = Return env ->
  let p := PageNumberPagination.page self in
  trace (PageNumberPagination.get_paginated_response self data)
  = next_calls p ++ previous_calls p.
Proof.
  destruct self as [request p]. cbn [PageNumberPagination.page].
  destruct p as [? ? [|] [|] [?|] [?|]]; unfold result, trace; simpl;
    intros; try discriminate; reflexivity.
Qed.

Lemma envelope_calls_once_witness :
  trace (PageNumberPagination.get_paginated_response
           (with_request things single_page) [10; 20])
  = [has_next_returned false; has_previous_returned false].
Proof.
  exact (envelope_calls_once (with_request things single_page) [10; 20] _ eq_refl).
Defined.

(** X3: when the legacy serializer returns, it has read the next page number
    twice and then the previous page number twice, each time asking the
    boolean first: once for the number field and once for the link field. *)
Theorem serializer_calls_twice (context : gmap string (option Request.t))
    (p : Page.t) (flat : PaginationSerializer.Representation) :
  result (PaginationSerializer.to_representation context p) = Return flat ->
  trace (PaginationSerializer.to_representation context p)
  = next_calls p ++ next_calls p ++ previous_calls p ++ previous_calls p.
Proof.
  destruct p as [? ? [|] [|] [?|] [?|]]; unfold result, trace; simpl;
    intros; try discriminate; reflexivity.
Qed.

Lemma serializer_calls_twice_witness :
  trace (PaginationSerializer.to_representation ∅ page2of5)
  = [has_next_returned true; next_page_number_called;
     has_next_returned true; next_page_number_called;
     has_previous_returned true; previous_page_number_called;
     has_previous_returned true; previous_page_number_called].
Proof.
  exact (serializer_calls_twice ∅ page2of5 _ eq_refl).
Defined.

(** X4: the legacy serializer and [get_paginated_response] raise on the same
    pages, whatever the context, the request and the items are. *)
Theorem serializer_raises_with_envelope {Data} (self : PageNumberPagination.t)
    (context : gmap string (option Request.t)) (data : Data) :
  result (PaginationSerializer.to_representation context
            (PageNumberPagination.page self)) = Raise <->
  result (PageNumberPagination.get_paginated_response self data) = Raise.
Proof.
  destruct self as [request p]. cbn [PageNumberPagination.page].
  destruct p as [? ? [|] [|] [?|] [?|]]; unfold result; simpl;
    split; intros H; try discriminate; reflexivity.
Qed.

(** ** Which links are null, and which are equal *)

Lemma of_int_inj (i j : Z) : Str.of_int i = Str.of_int j -> i = j.
Proof.
  assert (Hnil : forall z, Z.to_int z <> Pos Nil /\ Z.to_int z <> Neg Nil).
  { intros [|q|q]; simpl; split; try discriminate; intros E;
      injection E as E; now apply Unsigned.to_uint_nonnil in E. }
  unfold Str.of_int. intros H. apply DecimalZ.to_int_inj.
  destruct (Hnil i) as [Hi Hi']. destruct (Hnil j) as [Hj Hj'].
  pose proof (NilZero.isi _ Hi Hi') as Ei. pose proof (NilZero.isi _ Hj Hj') as Ej.
  rewrite H in Ei. congruence.
Qed.

Lemma append_inv_head (s a b : string) : s +:+ a = s +:+ b -> a = b.
Proof.
  induction s as [|c s IH]; simpl; [auto|]. intros E. injection E as E. auto.
Qed.

Lemma replace_query_param_inj (url key : string) (i j : Z) :
  Str.mem "=" key = false -> Str.mem "&" key = false ->
  replace_query_param url key i = replace_query_param url key j -> i = j.
Proof.
  intros Heq Hamp E. apply (f_equal Url.params) in E.
  rewrite !replace_query_param_params in E by assumption.
  pose proof (set_param_new key (Str.of_int i) (Url.params url)) as Hin.
  rewrite E in Hin. apply set_param_named in Hin; [|now apply names_new].
  apply of_int_inj. apply append_inv_head in Hin. now apply append_inv_head in Hin.
Qed.

(** X5: [build_link] gives different links for different indexes: no two
    pages share a link. *)
Theorem build_link_distinct (self : PageNumberPagination.t) (i j : Z) :
  i <> j ->
  PageNumberPagination.build_link self (Some i)
  <> PageNumberPagination.build_link self (Some j).
Proof.
  intros Hij E. apply Hij.
  destruct (Z.eq_dec i 0) as [->|Hi]; destruct (Z.eq_dec j 0) as [->|Hj];
    [reflexivity | | | ].
  - rewrite (build_link_some self j Hj) in E. discriminate.
  - rewrite (build_link_some self i Hi) in E. discriminate.
  - rewrite (build_link_some self i Hi), (build_link_some self j Hj) in E.
    injection E as E. now apply replace_query_param_inj in E.
Qed.

Lemma build_link_distinct_witness :
  PageNumberPagination.build_link (with_request things_sorted page2of5) (Some 2)
  <> PageNumberPagination.build_link (with_request things_sorted page2of5) (Some 3).
Proof.
  apply (build_link_distinct (with_request things_sorted page2of5) 2 3). lia.
Defined.

(** X6: in the returned envelope the [last] link is null exactly when the
    paginator has no pages, the [next] link exactly when [has_next()] is
    false or the next page number is zero, and the [prev] link exactly when
    [has_previous()] is false or the previous page number is zero. *)
Theorem null_links_exactly {Data} (self : PageNumberPagination.t) (data : Data)
    (env : PageNumberPagination.Response Data) :
  result (PageNumberPagination.get_paginated_response self data) = Return env ->
  let p := PageNumberPagination.page self in
  (od_get "last" (PageNumberPagination.links env) = Some None <->
   Paginator.num_pages (Page.paginator p) = 0) /\
  (od_get "next" (PageNumberPagination.links env) = Some None <->
   Page.has_next_answer p = false \/ Page.next_page_number_answer p = Return 0) /\
  (od_get "prev" (PageNumberPagination.links env) = Some None <->
   Page.has_previous_answer p = false \/
   Page.previous_page_number_answer p = Return 0).
Proof.
  intros E p.
  apply get_paginated_response_envelope in E as (next & previous & E & ->).
  apply next_and_previous_result in E as [Hn Hp]. fold p in Hn, Hp.
  assert (Hnull : forall i,
    Some (PageNumberPagination.build_link self (Some i)) = Some None <-> i = 0).
  { intros i. split.
    - intros H. destruct (Z.eq_dec i 0) as [|Hi]; [assumption|].
      rewrite build_link_some in H by exact Hi. discriminate.
    - intros ->. reflexivity. }
  simpl. split; [apply Hnull|]. split.
  - destruct Hn as [[Hn ->]|(n & Hn & Hn' & ->)].
    + split; [now left | reflexivity].
    + rewrite Hnull, Hn, Hn'. split; [intros ->; now right|].
      intros [H|H]; [discriminate | now injection H].
  - destruct Hp as [[Hp ->]|(n & Hp & Hp' & ->)].
    + split; [now left | reflexivity].
    + rewrite Hnull, Hp, Hp'. split; [intros ->; now right|].
      intros [H|H]; [discriminate | now injection H].
Qed.

Lemma null_links_exactly_witness :
  od_get "prev" (PageNumberPagination.links
    {| PageNumberPagination.results := [10; 20];
       PageNumberPagination.meta := {| PageNumberPagination.pagination :=
         [("page", 1); ("pages", 2); ("count", 30)] |};
       PageNumberPagination.links :=
         [("first", Some "?page=1"); ("last", Some "?page=2");
          ("next", None); ("prev", None)] |}) = Some None <->
  Page.has_previous_answer page_counted_from_zero = false \/
  Page.previous_page_number_answer page_counted_from_zero = Return 0.
Proof.
  exact (proj2 (proj2 (null_links_exactly (no_request page_counted_from_zero)
                         [10; 20] _ eq_refl))).
Defined.

(** X7: in the returned envelope the [first] and [last] links are equal
    exactly when the paginator has one page. *)
Theorem first_is_last_exactly {Data} (self : PageNumberPagination.t) (data : Data)
    (env : PageNumberPagination.Response Data) :
  result (PageNumberPagination.get_paginated_response self data) = Return env ->
  (od_get "first" (PageNumberPagination.links env)
   = od_get "last" (PageNumberPagination.links env) <->
   Paginator.num_pages (Page.paginator (PageNumberPagination.page self)) = 1).
Proof.
  intros E.
  apply get_paginated_response_envelope in E as (next & previous & _ & ->).
  simpl. split.
  - intros H. injection H as H.
    destruct (Z.eq_dec (Paginator.num_pages
                (Page.paginator (PageNumberPagination.page self))) 1) as [|Hne];
      [assumption|].
    exfalso. apply (build_link_distinct self 1 _ (not_eq_sym Hne)). exact H.
  - intros ->. reflexivity.
Qed.

Lemma first_is_last_exactly_witness :
  od_get "first" (PageNumberPagination.links
    {| PageNumberPagination.results := [10; 20];
       PageNumberPagination.meta := {| PageNumberPagination.pagination :=
         [("page", 1); ("pages", 1); ("count", 7)] |};
       PageNumberPagination.links :=
         [("first", Some "https://api.example.com/things?page=1");
          ("last", Some "https://api.example.com/things?page=1");
          ("next", None); ("prev", None)] |})
  = Some (Some "https://api.example.com/things?page=1") /\
  Paginator.num_pages (Page.paginator single_page) = 1.
Proof.
  split; [reflexivity|].
  apply (first_is_last_exactly (with_request things single_page) [10; 20] _ eq_refl).
  reflexivity.
Defined.

(** ** The request and the context *)

(** X9: in [request and request.build_absolute_uri() or ''] the fallback
    never replaces the URL of a request that is there: with a request,
    [build_link] substitutes into that request's URL; and a request whose URL
    is the empty string gives the same links as no request at all. *)
Theorem build_link_uses_request_url (self : PageNumberPagination.t)
    (r : Request.t) (i : Z) :
  PageNumberPagination.request self = Some r ->
  i <> 0 ->
  PageNumberPagination.build_link self (Some i)
  = Some (replace_query_param (Request.build_absolute_uri r) "page" i) /\
  (Request.build_absolute_uri r = "" ->
   PageNumberPagination.build_link self (Some i)
   = PageNumberPagination.build_link (no_request (PageNumberPagination.page self))
       (Some i)).
Proof.
  intros Hr Hi. rewrite !build_link_some by exact Hi.
  rewrite Hr, request_url_some. split; [reflexivity|].
  intros ->. reflexivity.
Qed.

Lemma build_link_uses_request_url_witness :
  PageNumberPagination.build_link (with_request blank page2of5) (Some 4)
  = Some "?page=4".
Proof.
  destruct (build_link_uses_request_url (with_request blank page2of5) blank 4
              eq_refl) as [_ H]; [lia|].
  rewrite (H eq_refl). reflexivity.
Defined.

Lemma dict_get_insert_ne {V} (context : gmap string (option V)) (k key : string)
    (v : option V) :
  k <> key -> dict_get (<[k := v]> context) key = dict_get context key.
Proof. intros H. unfold dict_get. now rewrite lookup_insert_ne. Qed.

Lemma dict_get_none {V} (context : gmap string (option V)) (key : string) :
  dict_get (<[key := None]> context) key = dict_get (delete key context) key.
Proof. unfold dict_get. now rewrite lookup_insert_eq, lookup_delete_eq. Qed.

(** X10: the link fields and the legacy serializer read nothing of the
    context but its [request]: an entry under another key changes no
    outcome and no call; and a [request] entry that is [None] counts as a
    missing one. *)
Theorem context_only_request (context : gmap string (option Request.t))
    (k : string) (v : option Request.t) (p : Page.t) :
  k <> "request" ->
  NextPageLinkField.to_representation (<[k := v]> context) p
  = NextPageLinkField.to_representation context p /\
  PreviousPageLinkField.to_representation (<[k := v]> context) p
  = PreviousPageLinkField.to_representation context p /\
  PaginationSerializer.to_representation (<[k := v]> context) p
  = PaginationSerializer.to_representation context p /\
  PaginationSerializer.to_representation (<["request" := None]> context) p
  = PaginationSerializer.to_representation (delete "request" context) p.
Proof.
  intros Hk.
  unfold PaginationSerializer.to_representation,
    NextPageLinkField.to_representation, PreviousPageLinkField.to_representation.
  rewrite (dict_get_insert_ne context k "request" v Hk).
  rewrite (dict_get_none context "request").
  repeat split; reflexivity.
Qed.

Lemma context_only_request_witness :
  result (NextPageLinkField.to_representation
            (<["view" := None]> {[ "request" := Some things ]}) page2of5)
  = Return (Some "https://api.example.com/things?page=3").
Proof.
  destruct (context_only_request {[ "request" := Some things ]} "view" None page2of5)
    as [H _]; [discriminate|].
  rewrite H. reflexivity.
Defined.

(** X11: a number field and its link field agree on every page: both raise
    or neither, both are null or neither, and they make the same calls. *)
Theorem number_and_link_fields_agree (context : gmap string (option Request.t))
    (p : Page.t) :
  (result (NextPageLinkField.to_representation context p) = Raise <->
   result (NextPageField.to_representation p) = Raise) /\
  (result (NextPageLinkField.to_representation context p) = Return None <->
   result (NextPageField.to_representation p) = Return None) /\
  trace (NextPageLinkField.to_representation context p)
  = trace (NextPageField.to_representation p) /\
  (result (PreviousPageLinkField.to_representation context p) = Raise <->
   result (PreviousPageField.to_representation p) = Raise) /\
  (result (PreviousPageLinkField.to_representation context p) = Return None <->
   result (PreviousPageField.to_representation p) = Return None) /\
  trace (PreviousPageLinkField.to_representation context p)
  = trace (PreviousPageField.to_representation p).
Proof.
  destruct p as [? ? [|] [|] [?|] [?|]]; unfold result, trace; simpl;
    repeat split; intros H; try discriminate; reflexivity.
Qed.

(** The returned envelope always has the four link keys [first], [last],
    [next], [prev], in this order: a link that is null is listed, not left
    out. *)
Theorem links_keys {Data} (self : PageNumberPagination.t) (data : Data)
    (env : PageNumberPagination.Response Data) :
  result (PageNumberPagination.get_paginated_response self data) = Return env ->
  map fst (PageNumberPagination.links env) = ["first"; "last"; "next"; "prev"] /\
  forall key, In key ["first"; "last"; "next"; "prev"] ->
    exists link, od_get key (PageNumberPagination.links env) = Some link.
Proof.
  intros E.
  apply get_paginated_response_envelope in E as (next & previous & _ & ->).
  split; [reflexivity|].
  intros key [<-|[<-|[<-|[<-|[]]]]]; simpl; eauto.
Qed.

Lemma links_keys_witness :
  map fst (PageNumberPagination.links
    {| PageNumberPagination.results := @nil Z;
       PageNumberPagination.meta := {| PageNumberPagination.pagination :=
         [("page", 1); ("pages", 0); ("count", 0)] |};
       PageNumberPagination.links :=
         [("first", Some "?page=1"); ("last", None); ("next", None); ("prev", None)] |})
  = ["first"; "last"; "next"; "prev"].
Proof.
  exact (proj1 (links_keys (no_request empty_page) (@nil Z) _ eq_refl)).
Defined.

(** X12: in what the legacy serializer returns, a page number and its link
    come together: [next_link] is null exactly when [next] is, and
    [previous_link] exactly when [previous] is, also for a page number of
    zero. *)
Theorem serializer_number_iff_link (context : gmap string (option Request.t))
    (p : Page.t) (flat : PaginationSerializer.Representation) :
  result (PaginationSerializer.to_representation context p) = Return flat ->
  (PaginationSerializer.next_link flat = None <->
   PaginationSerializer.next flat = None) /\
  (PaginationSerializer.previous_link flat = None <->
   PaginationSerializer.previous flat = None).
Proof.
  destruct p as [? ? [|] [|] [?|] [?|]]; unfold result; simpl;
    intros E; try discriminate; injection E as <-; simpl;
    repeat split; intros H; try discriminate; reflexivity.
Qed.

Lemma serializer_number_iff_link_witness :
  PaginationSerializer.previous_link
    {| PaginationSerializer.next := None;
       PaginationSerializer.next_link := None;
       PaginationSerializer.page := 1;
       PaginationSerializer.previous := Some 0;
       PaginationSerializer.previous_link := Some "?page=0";
       PaginationSerializer.count := 30;
       PaginationSerializer.total := 2 |} = None <->
  Some 0 = @None Z.
Proof.
  exact (proj2 (serializer_number_iff_link ∅ page_counted_from_zero _ eq_refl)).
Defined.

(** ** The compatibility bindings *)

(** X13: [ReadOnlyField] is bound to the framework's [ReadOnlyField] when it
    has one and to its [Field] otherwise; as the fallback [serializers.Field]
    is read first, a framework without [Field] makes the binding raise even
    if it has a [ReadOnlyField]. *)
Theorem ReadOnlyField_binding {C} (serializers : gmap string C) (field readonly : C) :
  Compat.ReadOnlyField (<["ReadOnlyField" := readonly]> (<["Field" := field]> serializers))
  = Return readonly /\
  Compat.ReadOnlyField (delete "ReadOnlyField" (<["Field" := field]> serializers))
  = Return field /\
  Compat.ReadOnlyField (<["ReadOnlyField" := readonly]> (delete "Field" serializers))
  = Raise.
Proof.
  unfold Compat.ReadOnlyField, Compat.attribute, Compat.getattr.
  repeat split.
  - rewrite lookup_insert_ne by discriminate.
    now rewrite !lookup_insert_eq.
  - rewrite lookup_delete_ne by discriminate.
    now rewrite lookup_insert_eq, lookup_delete_eq.
  - rewrite lookup_insert_ne by discriminate.
    now rewrite lookup_delete_eq.
Qed.

(** X14: [BasePagination] is bound to [PageNumberPagination] whenever the
    framework has it, to [BasePaginationSerializer] when it has only that,
    and the binding raises exactly when the framework has neither. *)
Theorem BasePagination_binding {C} (pagination : gmap string C) :
  (forall c, pagination !! "PageNumberPagination" = Some c ->
     Compat.BasePagination pagination = Return c) /\
  (forall c, pagination !! "PageNumberPagination" = None ->
     pagination !! "BasePaginationSerializer" = Some c ->
     Compat.BasePagination pagination = Return c) /\
  (Compat.BasePagination pagination = Raise <->
   pagination !! "PageNumberPagination" = None /\
   pagination !! "BasePaginationSerializer" = None).
Proof.
  unfold Compat.BasePagination, Compat.attribute. repeat split.
  - intros c ->. reflexivity.
  - intros c -> ->. reflexivity.
  - destruct (pagination !! "PageNumberPagination"); [discriminate | reflexivity].
  - destruct (pagination !! "PageNumberPagination"); [discriminate|].
    destruct (pagination !! "BasePaginationSerializer"); [discriminate | reflexivity].
  - intros [-> ->]. reflexivity.
Qed.

Lemma BasePagination_binding_witness :
  Compat.BasePagination
    ({[ "PageNumberPagination" := 1%nat; "BasePaginationSerializer" := 2%nat ]}
       : gmap string nat) = Return 1%nat /\
  Compat.BasePagination
    ({[ "BasePaginationSerializer" := 2%nat ]} : gmap string nat) = Return 2%nat.
Proof.
  split.
  - apply (proj1 (BasePagination_binding _)). reflexivity.
  - apply (proj1 (proj2 (BasePagination_binding _))); reflexivity.
Defined.
